(** * Verification of KITTILoader.py (frustum point data and stereo image loaders)

    Geometry, angles and augmentation are modelled over the real numbers [R]
    (numpy's float64 arithmetic read as exact arithmetic); [size2class] and
    [angle2class] are also modelled over binary64 ([PrimFloat]), where
    rounding changes what they return.
    Random draws are explicit inputs to the functions that consume them. *)

From Stdlib Require Import String.
From Stdlib Require Import ZArith Reals Lra Lia List Bool Machin.
From Stdlib Require Floats.
Import ListNotations.

#[local] Set Warnings "-inexact-float".

Open Scope R_scope.

(** ** Python numerics on reals *)
Module Py.

(** [x % y] on Python floats, for the divisor [y > 0] used here:
    [x - y * floor (x / y)]. *)
Definition pymod (x y : R) : R := x - y * IZR (Int_part (x / y)).

(** [int(x)]: truncation towards zero. *)
Definition py_int (x : R) : Z :=
  if Rle_dec 0 x then Int_part x else (- Int_part (- x))%Z.

(** [np.clip(a, lo, hi)] = [minimum(maximum(a, lo), hi)]. *)
Definition clip (a lo hi : R) : R := Rmin (Rmax a lo) hi.

End Py.

(** ** angle2class *)
Module Angle.
Import Py.

(** [angle2class(angle, num_class)] read over exact reals; [None] is a
    raised error: the [assert] on line 88, or the division by
    [float(num_class)] when [num_class = 0]. The binary64 version the code
    actually runs is [AngleF.angle2class]. *)
Definition angle2class (angle : R) (num_class : Z) : option (Z * R) :=
  let angle := pymod angle (2 * PI) in
  if Rle_dec 0 angle then
    if Rle_dec angle (2 * PI) then
      if Z.eqb num_class 0 then None
      else
        let angle_per_class := 2 * PI / IZR num_class in
        let shifted_angle := pymod (angle + angle_per_class / 2) (2 * PI) in
        let class_id := py_int (shifted_angle / angle_per_class) in
        let residual_angle :=
          shifted_angle - (IZR class_id * angle_per_class + angle_per_class / 2) in
        Some (class_id, residual_angle)
    else None
  else None.

End Angle.

(** ** angle2class in binary64 *)
Module AngleF.
Import Floats.
Local Open Scope float_scope.

(** [np.pi], the double nearest [pi]. *)
Definition np_pi : float := 3.141592653589793.

(** [float(n)] for a Python int, rounded to nearest. *)
Definition of_Z (n : Z) : float :=
  SF2Prim (SpecFloat.binary_normalize FloatOps.prec FloatOps.emax n 0 false).

(** C's [fmod(x, y)]: the exact remainder of [x] by [y], with the sign of [x]
    (a remainder of doubles is a double, so no rounding happens). *)
Definition fmod (x y : float) : float :=
  match Prim2SF x, Prim2SF y with
  | S754_nan, _ | _, S754_nan | S754_infinity _, _ | _, S754_zero _ => nan
  | S754_zero _, _ | S754_finite _ _ _, S754_infinity _ => x
  | S754_finite sx mx ex, S754_finite _ my ey =>
      let e := Z.min ex ey in
      let r := Z.modulo (Zpos mx * 2 ^ (ex - e)) (Zpos my * 2 ^ (ey - e)) in
      SF2Prim (SpecFloat.binary_normalize FloatOps.prec FloatOps.emax
                 (if sx then Z.opp r else r) e sx)
  end.

(** [x % y] on floats, as CPython's [float_rem] (and numpy's [npy_divmod])
    compute it: [None] is the [ZeroDivisionError];
    [mod = fmod(x, y)]; if [mod] is nonzero and its sign differs from
    [y]'s, [mod += y]; a zero [mod] takes the sign of [y]. *)
Definition pymod (x y : float) : option float :=
  if y =? 0 then None
  else
    let m := fmod x y in
    if is_zero m then Some (if get_sign y then neg_zero else zero)
    else if Bool.eqb (y <? 0) (m <? 0) then Some m else Some (m + y).

(** [int(x)]: truncation towards zero; [None] is the error raised on an
    infinite or NaN [x]. *)
Definition py_int (x : float) : option Z :=
  match Prim2SF x with
  | S754_zero _ => Some 0%Z
  | S754_finite s m e =>
      let n := (if (0 <=? e)%Z then Zpos m * 2 ^ e else Z.div (Zpos m) (2 ^ (- e)))%Z in
      Some (if s then Z.opp n else n)
  | _ => None
  end.

(** [angle2class(angle, num_class)] in binary64. [None] is a raised error:
    the [assert], or [ZeroDivisionError] for [float(num_class) = 0].
    [class_id * angle_per_class] multiplies [float(class_id)]. *)
Definition angle2class (angle : float) (num_class : Z) : option (Z * float) :=
  match pymod angle (2 * np_pi) with
  | None => None
  | Some angle =>
    if (0 <=? angle) && (angle <=? 2 * np_pi) then
      let n := of_Z num_class in
      if n =? 0 then None
      else
        let angle_per_class := 2 * np_pi / n in
        match pymod (angle + angle_per_class / 2) (2 * np_pi) with
        | None => None
        | Some shifted_angle =>
          match py_int (shifted_angle / angle_per_class) with
          | None => None
          | Some class_id =>
            let residual_angle :=
              shifted_angle - (of_Z class_id * angle_per_class + angle_per_class / 2) in
            Some (class_id, residual_angle)
          end
        end
    else None
  end.

(** The real value of a finite double ([0] for infinities and NaN). *)
Definition to_R (f : float) : R :=
  match Prim2SF f with
  | S754_finite s m e => (if s then - IZR (Zpos m) else IZR (Zpos m)) * powerRZ 2 e
  | _ => 0%R
  end.
End AngleF.

(** ** rotate_pc_along_y *)
Module Geometry.

(** A row of an (N, C) point array whose first three channels are XYZ;
    [rest] holds the channels after the third. *)
Record point := mkPoint { px : R; py : R; pz : R; rest : list R }.

(** [pc[:, [0, 2]] = np.dot(pc[:, [0, 2]], np.transpose(rotmat))] on one row,
    with [rotmat = [[cos, -sin], [sin, cos]]]. *)
Definition rotate_row (cosval sinval : R) (p : point) : point :=
  mkPoint (px p * cosval + pz p * (- sinval)) (py p)
          (px p * sinval + pz p * cosval) (rest p).

Definition rotate_pc_along_y (pc : list point) (rot_angle : R) : list point :=
  let cosval := cos rot_angle in
  let sinval := sin rot_angle in
  map (rotate_row cosval sinval) pc.

End Geometry.

(** ** size2class *)
Module Size.

(** [__box_mean] and [size2class] in float64, as numpy computes them. *)
Module F.
Import Floats.
Local Open Scope float_scope.
Definition box_mean : float * float * float :=
  (3.996132075471698908, 1.617452830188679469, 1.517264150943395506).
Definition size2class (size : float * float * float) : float * float * float :=
  let '(l, w, h) := size in
  let '(ml, mw, mh) := box_mean in
  (l - ml, w - mw, h - mh).
(** Adding the mean back, as the claim reads [size2class(size) + meanBoxSize]. *)
Definition add_mean (r : float * float * float) : float * float * float :=
  let '(a, b, c) := r in
  let '(ml, mw, mh) := box_mean in
  (a + ml, b + mw, c + mh).
End F.

(** The same two functions on exact reals. *)
Module Re.
Definition box_mean : R * R * R :=
  (3996132075471698908 / 1000000000000000000,
   1617452830188679469 / 1000000000000000000,
   1517264150943395506 / 1000000000000000000).
Definition size2class (size : R * R * R) : R * R * R :=
  let '(l, w, h) := size in
  let '(ml, mw, mh) := box_mean in
  (l - ml, w - mw, h - mh).
Definition add_mean (r : R * R * R) : R * R * R :=
  let '(a, b, c) := r in
  let '(ml, mw, mh) := box_mean in
  (a + ml, b + mw, c + mh).
End Re.

End Size.

(** ** myPointData.__getitem__ *)
Module PointData.
Import Py Geometry.

(** The stored record returned by [point_loader] (its keys; [box3d_center]
    is a 3-vector, kept as a [point] with no extra channels). *)
Record datas := mkDatas {
  img_id : Z;
  frustum_angle : R;
  point_2d : list point;
  label : list Z;
  point_velo : list point;
  velo_label : list Z;
  box3d_center : point;
  box3d_size : R * R * R;
  heading : R
}.

(** [myPointData]: the records behind [self.points] (in order) and the
    constructor's options. *)
Record dataset := mkDataset {
  points : list datas;
  num_point : nat;
  num_angle : Z;
  random_flip : bool;
  random_shift : bool;
  lidar : bool
}.

(** The draws of numpy's global generator consumed by one call, in order:
    the [choice] indices, [np.random.random()] and [np.random.randn()]. *)
Record draws := mkDraws {
  choice_draw : nat -> nat;
  uniform_draw : R;
  gauss_draw : R
}.

(** [np.random.choice(n, k, replace=True)]: [k] indices in [0, n); numpy
    raises when [n = 0] and [k <> 0]. *)
Definition np_choice (n k : nat) (draw : nat -> nat) : option (list nat) :=
  if Nat.eqb n 0 && negb (Nat.eqb k 0) then None
  else Some (map (fun i => draw i mod n) (seq 0 k)).

(** Integer-array indexing [a[choice]]; an index out of range raises. *)
Fixpoint take_idx {A} (a : list A) (choice : list nat) : option (list A) :=
  match choice with
  | [] => Some []
  | i :: cs =>
      match nth_error a i, take_idx a cs with
      | Some v, Some vs => Some (v :: vs)
      | _, _ => None
      end
  end.

(** The working values of the augmentation block (lines 145-158). *)
Record aug := mkAug { a_points : list point; a_center : point; a_head : R }.

Definition neg_x (p : point) : point := mkPoint (- px p) (py p) (pz p) (rest p).
Definition add_z (s : R) (p : point) : point := mkPoint (px p) (py p) (pz p + s) (rest p).

(** [if self.random_flip: if np.random.random() > 0.5: ...] *)
Definition flip_stage (flip : bool) (u : R) (s : aug) : aug :=
  if flip then
    if Rlt_dec 0.5 u then
      mkAug (map neg_x (a_points s)) (neg_x (a_center s)) (PI - a_head s)
    else s
  else s.

Definition shift_dist (c : point) : R := sqrt (px c ^ 2 + py c ^ 2).

Definition shift_value (c : point) (g : R) : R :=
  let dist := shift_dist c in
  clip (g * dist * 0.05) (dist * 0.8) (dist * 1.2).

(** [if self.random_shift: dist = ...; shift = np.clip(...); ...] *)
Definition shift_stage (shift_on : bool) (g : R) (s : aug) : aug :=
  if shift_on then
    let shift := shift_value (a_center s) g in
    mkAug (map (add_z shift) (a_points s)) (add_z shift (a_center s)) (a_head s)
  else s.

Definition augment (ds : dataset) (d : draws) (s : aug) : aug :=
  shift_stage (random_shift ds) (gauss_draw d)
    (flip_stage (random_flip ds) (uniform_draw d) s).

(** The returned tuple (the file name [point.split('/')[-1]] is left out). *)
Record item := mkItem {
  o_points : list point;
  o_seg : list Z;
  o_center : point;
  o_angle_c : Z;
  o_angle_r : R;
  o_size_r : R * R * R;
  o_rot_angle : R;
  o_img_id : Z
}.

(** [rotate_pc_along_y(np.expand_dims(c, 0), rot_angle).squeeze()] *)
Definition rotate_center (c : point) (rot_angle : R) : point :=
  match rotate_pc_along_y [c] rot_angle with
  | [c'] => c'
  | _ => c
  end.

Definition getitem (ds : dataset) (d : draws) (index : nat) : option item :=
  match nth_error (points ds) index with
  | None => None
  | Some dt =>
    let rot_angle := PI / 2 + frustum_angle dt in
    let pts := if lidar ds then point_velo dt else point_2d dt in
    let seg_mask := if lidar ds then velo_label dt else label dt in
    match np_choice (length pts) (num_point ds) (choice_draw d) with
    | None => None
    | Some choice =>
      match take_idx pts choice, take_idx seg_mask choice with
      | Some pts, Some seg_mask =>
        let s := augment ds d (mkAug pts (box3d_center dt) (heading dt)) in
        let size_r := Size.Re.size2class (box3d_size dt) in
        let points_rot := rotate_pc_along_y (a_points s) rot_angle in
        let center_rot := rotate_center (a_center s) rot_angle in
        match Angle.angle2class (a_head s - rot_angle) (num_angle ds) with
        | Some (c, r) =>
            Some (mkItem points_rot seg_mask center_rot c r size_r rot_angle (img_id dt))
        | None => None
        end
      | _, _ => None
      end
    end
  end.

End PointData.

(** ** myImageFloder.__getitem__ *)
Module Stereo.

(** A PIL image: [size = (width, height)] and its pixels. *)
Record image (A : Type) := mkImage { width : Z; height : Z; pixel : Z -> Z -> A }.
Arguments mkImage {A}.
Arguments width {A}.
Arguments height {A}.
Arguments pixel {A}.

Definition rgb := (Z * Z * Z)%type.

(** [img.crop((l, t, r, b))]: a [(r - l) x (b - t)] image; pixels outside
    the source read as [zero]; PIL raises when [r < l] or [b < t]. *)
Definition crop {A} (zero : A) (img : image A) (l t r b : Z) : option (image A) :=
  if Z.ltb r l || Z.ltb b t then None
  else Some (mkImage (r - l) (b - t)
               (fun x y =>
                  if (0 <=? x + l)%Z && (x + l <? width img)%Z
                     && (0 <=? y + t)%Z && (y + t <? height img)%Z
                  then pixel img (x + l) (y + t) else zero)).

(** [[a, a+1, ..., b-1]] *)
Definition zrange (a b : Z) : list Z :=
  map (fun i => (a + Z.of_nat i)%Z) (seq 0 (Z.to_nat (b - a))).

(** [np.ascontiguousarray(img, dtype=np.float32) / 256]: rows of height. *)
Definition disparity_array (img : image Z) : list (list R) :=
  map (fun y => map (fun x => IZR (pixel img x y) / 256) (zrange 0 (width img)))
      (zrange 0 (height img)).

(** Python slice [l[a:b]] for [0 <= a]. *)
Definition pyslice {A} (l : list A) (a b : Z) : list A :=
  firstn (Z.to_nat (b - a)) (skipn (Z.to_nat a) l).

(** [arr[y1:y2, x1:x2]] *)
Definition slice2 (arr : list (list R)) (y1 y2 x1 x2 : Z) : list (list R) :=
  map (fun row => pyslice row x1 x2) (pyslice arr y1 y2).

(** [get_transform()]: [ToTensor] then [Normalize] with the ImageNet
    statistics; a [3 x height x width] tensor, kept as an image of triples. *)
Definition normalize (p : rgb) : R * R * R :=
  let '(r, g, b) := p in
  ((IZR r / 255 - 0.485) / 0.229,
   (IZR g / 255 - 0.456) / 0.224,
   (IZR b / 255 - 0.406) / 0.225).

Definition processed (img : image rgb) : image (R * R * R) :=
  mkImage (width img) (height img) (fun x y => normalize (pixel img x y)).

(** [random.randint(a, b)], driven by one draw; it raises when [b < a]. *)
Definition randint (a b : Z) (draw : nat) : option Z :=
  if Z.ltb b a then None else Some (a + Z.of_nat draw mod (b - a + 1))%Z.

(** [self.left], [self.right], [self.disp_L] (already loaded), [self.name]
    and the flags. *)
Record dataset := mkDataset {
  left : list (image rgb);
  right : list (image rgb);
  disp_L : list (image Z);
  training : bool;
  name : list string;
  load : bool
}.

Inductive disp_out := DispArray (a : list (list R)) | DispZero.

Inductive item :=
| TrainItem (l r : image (R * R * R)) (d : disp_out) (nm : string)
| EvalItem (l r : image (R * R * R)) (d : disp_out) (nm : string) (w h : Z).

Definition getitem (ds : dataset) (dx dy : nat) (index : nat) : option item :=
  match nth_error (left ds) index, nth_error (right ds) index,
        nth_error (name ds) index with
  | Some left_img, Some right_img, Some nm =>
    let dataL : option (option (image Z)) :=
      if load ds then Some None
      else option_map Some (nth_error (disp_L ds) index) in
    match dataL with
    | None => None
    | Some dataL =>
      if training ds then
        let w := width left_img in
        let h := height left_img in
        let th := 256%Z in
        let tw := 512%Z in
        match randint 0 (w - tw) dx, randint 0 (h - th) dy with
        | Some x1, Some y1 =>
          match crop (0, 0, 0)%Z left_img x1 y1 (x1 + tw) (y1 + th),
                crop (0, 0, 0)%Z right_img x1 y1 (x1 + tw) (y1 + th) with
          | Some l', Some r' =>
            let d := match dataL with
                     | Some dimg =>
                         DispArray (slice2 (disparity_array dimg) y1 (y1 + th) x1 (x1 + tw))
                     | None => DispZero
                     end in
            Some (TrainItem (processed l') (processed r') d nm)
          | _, _ => None
          end
        | _, _ => None
        end
      else
        let w := width left_img in
        let h := height left_img in
        (* [w1, h1 = left_img.size] (post-crop) is computed, but [w, h] is returned *)
        match crop (0, 0, 0)%Z left_img (w - 1232) (h - 368) w h,
              crop (0, 0, 0)%Z right_img (w - 1232) (h - 368) w h with
        | Some l', Some r' =>
          let d := match dataL with
                   | Some dimg =>
                       match crop 0%Z dimg (w - 1232) (h - 368) w h with
                       | Some dc => Some (DispArray (disparity_array dc))
                       | None => None
                       end
                   | None => Some DispZero
                   end in
          match d with
          | Some d => Some (EvalItem (processed l') (processed r') d nm w h)
          | None => None
          end
        | _, _ => None
        end
    end
  | _, _, _ => None
  end.

(** [arr[y][x]] on a 2-D array, [None] out of range. *)
Definition at2 (arr : list (list R)) (y x : nat) : option R :=
  match nth_error arr y with
  | Some row => nth_error row x
  | None => None
  end.

(** A returned disparity array has [h] rows of [w] values each. *)
Definition disp_shape (d : disp_out) (h w : nat) : Prop :=
  match d with
  | DispArray a => length a = h /\ Forall (fun row => length row = w) a
  | DispZero => True
  end.

End Stereo.

(** ** is_image_file and __len__ *)
Module Files.




(** [myPointData.__len__] and [myImageFloder.__len__] *)
Definition point_len (ds : PointData.dataset) : nat := length (PointData.points ds).
Definition image_len (ds : Stereo.dataset) : nat := length (Stereo.left ds).

End Files.

(** * Properties *)

Module PyFacts.
Import Py.

Lemma pymod_spec (x y : R) :
  0 < y ->
  0 <= pymod x y < y /\ exists m : Z, pymod x y = x + y * IZR m.
Proof.
  intros Hy. unfold pymod.
  destruct (base_Int_part (x / y)) as [H1 H2].
  set (k := Int_part (x / y)) in *.
  assert (Hx : x = y * (x / y)) by (field; lra).
  set (q := x / y) in *.
  split.
  - split; nra.
  - exists (- k)%Z. rewrite opp_IZR. ring.
Qed.

Lemma py_int_nonneg (x : R) : 0 <= x -> py_int x = Int_part x.
Proof.
  intros H. unfold py_int. destruct (Rle_dec 0 x); [reflexivity | contradiction].
Qed.

End PyFacts.

Module AngleFacts.
Import Py PyFacts Angle.

Lemma PI2_pos : 0 < 2 * PI.
Proof. pose proof PI_RGT_0; lra. Qed.

(** The full contract of [angle2class] for [num_class >= 1]: it returns, the
    class is in range, the residual is within half a bin, and the pair
    reconstructs the angle modulo [2 pi]. *)
Lemma angle2class_spec (a : R) (N : Z) :
  (1 <= N)%Z ->
  exists k r,
    angle2class a N = Some (k, r) /\
    (0 <= k < N)%Z /\
    - (PI / IZR N) <= r < PI / IZR N /\
    exists m : Z, IZR k * (2 * PI / IZR N) + r = a + 2 * PI * IZR m.
Proof.
  intros HN.
  pose proof PI2_pos as HP.
  assert (HNr : 1 <= IZR N) by (apply IZR_le; exact HN).
  destruct (pymod_spec a (2 * PI) HP) as [[HA0 HA1] [m1 Hm1]].
  set (A := pymod a (2 * PI)) in *.
  set (apc := 2 * PI / IZR N).
  assert (Happc : 0 < apc) by (unfold apc; apply Rdiv_lt_0_compat; lra).
  assert (HNapc : IZR N * apc = 2 * PI) by (unfold apc; field; lra).
  destruct (pymod_spec (A + apc / 2) (2 * PI) HP) as [[HS0 HS1] [m2 Hm2]].
  set (S := pymod (A + apc / 2) (2 * PI)) in *.
  assert (Hq0 : 0 <= S / apc) by (unfold Rdiv; apply Rmult_le_pos; [lra | left; apply Rinv_0_lt_compat; lra]).
  assert (HSq : S = apc * (S / apc)) by (field; lra).
  set (q := S / apc) in *.
  destruct (base_Int_part q) as [Hk1 Hk2].
  set (k := Int_part q) in *.
  assert (HqN : q < IZR N) by nra.
  assert (Hk0 : (0 <= k)%Z) by (assert (-1 < k)%Z by (apply lt_IZR; lra); lia).
  assert (HkN : (k < N)%Z) by (apply lt_IZR; lra).
  assert (HkS : IZR k * apc <= S) by nra.
  assert (HSk : S < IZR k * apc + apc) by nra.
  assert (Hhalf : apc / 2 = PI / IZR N) by (unfold apc; field; lra).
  exists k, (S - (IZR k * apc + apc / 2)).
  split.
  - unfold angle2class. fold A.
    destruct (Rle_dec 0 A) as [_ | C]; [| lra].
    destruct (Rle_dec A (2 * PI)) as [_ | C]; [| lra].
    replace (Z.eqb N 0) with false by (symmetry; apply Z.eqb_neq; lia).
    fold apc. fold S. fold q. rewrite (py_int_nonneg q Hq0). fold k. reflexivity.
  - split; [lia |].
    split; [rewrite <- Hhalf; lra |].
    exists (m1 + m2)%Z. rewrite plus_IZR. fold apc. lra.
Qed.

End AngleFacts.

Module AngleClaims.
Import Py PyFacts Angle AngleFacts.



(** C10 (amended): over exact reals, for every angle and [N >= 1], the
    residual returned by [angle2class] lies in [[- pi / N, pi / N)], half a
    bin width on each side. *)
Theorem angle2class_residual_bound (a : R) (N : Z) :
  (1 <= N)%Z ->
  exists k r,
    angle2class a N = Some (k, r) /\ - (PI / IZR N) <= r < PI / IZR N.
Proof.
  intros HN.
  destruct (angle2class_spec a N HN) as (k & r & Heq & _ & Hr & _).
  exists k, r. auto.
Qed.

Lemma angle2class_residual_bound_witness :
  (1 <= 3)%Z /\
  exists k r,
    angle2class 10 3 = Some (k, r) /\ - (PI / IZR 3) <= r < PI / IZR 3.
Proof.
  split; [lia | apply (angle2class_residual_bound 10 3); lia].
Defined.

End AngleClaims.

Module AngleFloatClaims.
Import Floats.

(** Bounds on [pi] from the alternating series of Machin's formula:
    [np.pi] (the double nearest [pi]) is below [pi], and [pi] is below the
    next double. *)
Lemma pi_bounds :
  7074237752028440 / 2251799813685248 < PI < 7074237752028441 / 2251799813685248.
Proof.
  destruct (PI_2_3_7_ineq 11) as [H1 H2].
  unfold sum_f_R0, tg_alt, PI_2_3_7_tg, Ratan_seq in H1, H2.
  simpl in H1, H2. lra.
Qed.

(** Rewrites [AngleF.to_R f] for concrete doubles [f] to a rational. *)
Ltac eval_to_R :=
  unfold AngleF.to_R;
  repeat match goal with
  | |- context [Prim2SF ?f] =>
      let v := eval vm_compute in (Prim2SF f) in change (Prim2SF f) with v
  end;
  cbv iota; simpl powerRZ.

(** C1 (refuted in binary64): the angle [23 * np.pi / 12] lies in
    [[0, 2 pi)], yet for [N = 12] the code returns class [12], outside
    [[0, 12)]: the shifted angle divided by the bin width rounds to exactly
    [12.0], and [int] keeps it. *)
Theorem angle2class_float_class_N :
  let a := (23 * AngleF.np_pi / 12)%float in
  0 <= AngleF.to_R a < 2 * PI /\
  exists k r, AngleF.angle2class a 12 = Some (k, r) /\ ~ (0 <= k < 12)%Z.
Proof.
  intros a. split.
  - unfold a. eval_to_R. pose proof pi_bounds. lra.
  - exists 12%Z. eexists. split; [vm_compute; reflexivity | lia].
Qed.

(** C10 (as stated, refuted in binary64): for the angle [np.pi / 3] and
    [N = 3] the code returns class [1] with a residual below [- pi / 3]: the
    roundings of [shifted_angle] and [class_id * angle_per_class +
    angle_per_class / 2] push it past the bound. *)
Lemma angle2class_float_residual_below :
  exists k r,
    AngleF.angle2class (AngleF.np_pi / 3)%float 3 = Some (k, r) /\
    AngleF.to_R r < - (PI / IZR 3).
Proof.
  eexists; eexists; split; [vm_compute; reflexivity |].
  eval_to_R. pose proof pi_bounds. lra.
Qed.

End AngleFloatClaims.

Module GeometryClaims.
Import Geometry.

Lemma rotate_row_norm (c s : R) (p : point) :
  s ^ 2 + c ^ 2 = 1 ->
  px (rotate_row c s p) ^ 2 + pz (rotate_row c s p) ^ 2 = px p ^ 2 + pz p ^ 2.
Proof.
  intros H. unfold rotate_row; cbn [px pz].
  replace ((px p * c + pz p * - s) ^ 2 + (px p * s + pz p * c) ^ 2)
    with ((px p ^ 2 + pz p ^ 2) * (s ^ 2 + c ^ 2)) by ring.
  rewrite H. ring.
Qed.

Lemma sin_cos_sq (t : R) : sin t ^ 2 + cos t ^ 2 = 1.
Proof. pose proof (sin2_cos2 t) as H. unfold Rsqr in H. lra. Qed.

(** C6: [rotate_pc_along_y] keeps [x^2 + z^2] of every row, is the identity
    for the angle [0], and is undone by rotating back by [- theta]. *)
Theorem rotate_pc_along_y_props (pc : list point) (theta : R) :
  Forall2 (fun p q => px q ^ 2 + pz q ^ 2 = px p ^ 2 + pz p ^ 2)
          pc (rotate_pc_along_y pc theta) /\
  rotate_pc_along_y pc 0 = pc /\
  rotate_pc_along_y (rotate_pc_along_y pc theta) (- theta) = pc.
Proof.
  unfold rotate_pc_along_y.
  split; [| split].
  - induction pc as [| p pc IH]; constructor; [| exact IH].
    apply rotate_row_norm, sin_cos_sq.
  - rewrite cos_0, sin_0.
    induction pc as [| [x y z r] pc IH]; [reflexivity |].
    cbn [map]. rewrite IH. f_equal. unfold rotate_row; cbn [px py pz rest]. f_equal; ring.
  - rewrite cos_neg, sin_neg, map_map.
    pose proof (sin_cos_sq theta) as H.
    induction pc as [| [x y z r] pc IH]; [reflexivity |].
    cbn [map]. rewrite IH. f_equal. unfold rotate_row; cbn [px py pz rest]. f_equal.
    + replace ((x * cos theta + z * - sin theta) * cos theta +
               (x * sin theta + z * cos theta) * - - sin theta)
        with (x * (sin theta ^ 2 + cos theta ^ 2)) by ring.
      rewrite H. ring.
    + replace ((x * cos theta + z * - sin theta) * - sin theta +
               (x * sin theta + z * cos theta) * cos theta)
        with (z * (sin theta ^ 2 + cos theta ^ 2)) by ring.
      rewrite H. ring.
Qed.

End GeometryClaims.

Module SizeClaims.
Import Size Floats.

(** C7 (as stated): with numpy's float64 arithmetic, adding the mean box
    size back to [size2class size] does not always give [size] back: a box
    of size (3.9, 3.64, 1.5) is not recovered. *)
Lemma size2class_roundtrip_float_fails :
  F.add_mean (F.size2class (3.9, 3.64, 1.5)%float) <> (3.9, 3.64, 1.5)%float.
Proof. vm_compute. discriminate. Qed.

(** C7 (amended): [size2class] subtracts the mean box size componentwise,
    and over exact reals adding it back returns [size]. *)
Theorem size2class_roundtrip_real (size : R * R * R) :
  Re.add_mean (Re.size2class size) = size.
Proof.
  destruct size as [[l w] h]. unfold Re.add_mean, Re.size2class.
  destruct Re.box_mean as [[ml mw] mh].
  f_equal; [f_equal |]; ring.
Qed.

End SizeClaims.

Module PointDataClaims.
Import Py Geometry PointData.

Lemma np_choice_ok (n k : nat) (draw : nat -> nat) :
  (1 <= n)%nat ->
  np_choice n k draw = Some (map (fun i => draw i mod n) (seq 0 k)).
Proof.
  intros Hn. unfold np_choice.
  destruct (Nat.eqb_spec n 0); [lia | reflexivity].
Qed.

Lemma take_idx_ok {A} (a : list A) (c : list nat) :
  Forall (fun i => (i < length a)%nat) c ->
  exists v, take_idx a c = Some v /\ length v = length c.
Proof.
  induction 1 as [| i c Hi _ IH]; [exists []; auto |].
  destruct IH as (v & Hv & Hlen).
  destruct (nth_error a i) as [x |] eqn:Hx.
  - exists (x :: v). simpl. rewrite Hx, Hv. simpl. auto.
  - apply nth_error_None in Hx. lia.
Qed.

Lemma choice_in_range (n m k : nat) (draw : nat -> nat) :
  (1 <= n)%nat -> (n <= m)%nat ->
  Forall (fun i => (i < m)%nat) (map (fun i => draw i mod n) (seq 0 k)).
Proof.
  intros Hn Hm. apply Forall_forall. intros i Hi.
  apply in_map_iff in Hi. destruct Hi as (j & <- & _).
  pose proof (Nat.mod_upper_bound (draw j) n ltac:(lia)). lia.
Qed.

Lemma augment_length (ds : dataset) (d : draws) (s : aug) :
  length (a_points (augment ds d s)) = length (a_points s).
Proof.
  unfold augment, shift_stage, flip_stage.
  destruct (random_flip ds), (random_shift ds); try destruct (Rlt_dec _ _);
    cbn [a_points]; rewrite ?length_map; reflexivity.
Qed.

(** C2 (as stated): for an empty stored cloud, [np.random.choice(0, 16)]
    raises, so [itemAt] returns no item at all. *)
Lemma getitem_empty_cloud_raises :
  getitem (mkDataset [mkDatas 0 0 [] [] [] [] (mkPoint 1 2 3 []) (4, 2, 1) 0]
                     16 12 false false false)
          (mkDraws (fun i => i) 0 0) 0 = None.
Proof. reflexivity. Qed.

(** C2 (amended): for a stored record whose selected cloud has at least one
    point and a label for each point, and a class count [num_angle >= 1],
    [itemAt] returns exactly [num_point] points and [num_point] labels,
    whatever the cloud size. *)
Theorem getitem_num_point (ds : dataset) (d : draws) (index : nat) (dt : datas) :
  nth_error (points ds) index = Some dt ->
  let pts := if lidar ds then point_velo dt else point_2d dt in
  let seg := if lidar ds then velo_label dt else label dt in
  (1 <= length pts)%nat -> (length pts <= length seg)%nat ->
  (1 <= num_angle ds)%Z ->
  exists it, getitem ds d index = Some it /\
             length (o_points it) = num_point ds /\
             length (o_seg it) = num_point ds.
Proof.
  intros Hdt pts seg Hn Hseg HN.
  unfold getitem. rewrite Hdt. fold pts seg.
  rewrite (np_choice_ok _ _ _ Hn).
  destruct (take_idx_ok pts _ (choice_in_range _ _ (num_point ds) (choice_draw d) Hn
                                 (le_n _)))
    as (p & Hp & Hplen).
  destruct (take_idx_ok seg _ (choice_in_range _ _ (num_point ds) (choice_draw d) Hn Hseg))
    as (l & Hl & Hllen).
  rewrite Hp, Hl.
  rewrite length_map, length_seq in Hplen, Hllen.
  set (s := augment ds d _).
  destruct (AngleFacts.angle2class_spec (a_head s - (PI / 2 + frustum_angle dt))
              (num_angle ds) HN) as (k & r & Heq & _).
  rewrite Heq.
  eexists; split; [reflexivity |]. cbn [o_points o_seg].
  unfold rotate_pc_along_y. rewrite length_map.
  unfold s. rewrite augment_length. cbn [a_points]. auto.
Qed.

Lemma getitem_num_point_witness :
  exists it,
    getitem (mkDataset [mkDatas 7 0.1 [mkPoint 1 0 5 [0.3]; mkPoint 2 1 6 [0.4]]
                                [1; 0]%Z [] [] (mkPoint 1 2 3 []) (4, 2, 1) 0.5]
                       5 12 true true false)
            (mkDraws (fun i => i) 0.9 0.2) 0 = Some it /\
    length (o_points it) = 5%nat /\ length (o_seg it) = 5%nat.
Proof.
  pose (dt := mkDatas 7 0.1 [mkPoint 1 0 5 [0.3]; mkPoint 2 1 6 [0.4]]
                      [1; 0]%Z [] [] (mkPoint 1 2 3 []) (4, 2, 1) 0.5).
  pose (ds := mkDataset [dt] 5 12 true true false).
  apply (getitem_num_point ds (mkDraws (fun i => i) 0.9 0.2) 0 dt);
    simpl; [reflexivity | lia | lia | lia].
Defined.

End PointDataClaims.

Module AugmentClaims.
Import Py Geometry PointData.

Lemma px_add_z (sh : R) (l : list point) : map px (map (add_z sh) l) = map px l.
Proof. rewrite map_map. reflexivity. Qed.

(** C4: with [random_flip] on and the flip branch taken
    ([np.random.random() > 0.5]), the pre-rotation values have every point's
    x negated, the box center's x negated and the heading [pi - heading];
    when the branch is not taken none of the three changes. *)
Theorem flip_forced (ds : dataset) (d : draws) (s : aug) :
  random_flip ds = true -> 0.5 < uniform_draw d ->
  let s' := augment ds d s in
  (map px (a_points s') = map (fun p => - px p) (a_points s) /\
   px (a_center s') = - px (a_center s) /\
   a_head s' = PI - a_head s) /\
  (forall u, u <= 0.5 -> flip_stage (random_flip ds) u s = s) /\
  flip_stage false (uniform_draw d) s = s.
Proof.
  intros Hf Hu s'.
  split; [| split].
  - unfold s', augment, flip_stage. rewrite Hf.
    destruct (Rlt_dec 0.5 (uniform_draw d)) as [_ | C]; [| lra].
    unfold shift_stage. destruct (random_shift ds); cbn [a_points a_center a_head];
      rewrite ?px_add_z, map_map; auto.
  - intros u Hle. unfold flip_stage. rewrite Hf.
    destruct (Rlt_dec 0.5 u); [lra | reflexivity].
  - reflexivity.
Qed.

Lemma flip_forced_witness :
  (random_flip (mkDataset [] 16 12 true true false) = true /\ 0.5 < 0.7) /\
  let s := mkAug [mkPoint 1 0 5 []; mkPoint (-2) 1 6 []] (mkPoint 1 2 3 []) 0.25 in
  let s' := augment (mkDataset [] 16 12 true true false) (mkDraws (fun i => i) 0.7 0.1) s in
  (map px (a_points s') = map (fun p => - px p) (a_points s) /\
   px (a_center s') = - px (a_center s) /\
   a_head s' = PI - a_head s) /\
  (forall u, u <= 0.5 ->
     flip_stage (random_flip (mkDataset [] 16 12 true true false)) u s = s) /\
  flip_stage false 0.7 s = s.
Proof.
  split; [split; [reflexivity | lra] |].
  apply (flip_forced (mkDataset [] 16 12 true true false) (mkDraws (fun i => i) 0.7 0.1));
    simpl; [reflexivity | lra].
Defined.

(** C5: the shift step, when enabled, computes one value
    [clip (g * dist * 0.05) (dist * 0.8) (dist * 1.2)] with
    [dist = sqrt (cx^2 + cy^2)] from the first two center components, adds it
    to the z of every point and of the center, and changes nothing else. *)
Theorem shift_stage_spec (g : R) (s : aug) :
  let c := a_center s in
  let dist := sqrt (px c ^ 2 + py c ^ 2) in
  let shift := clip (g * dist * 0.05) (dist * 0.8) (dist * 1.2) in
  let s' := shift_stage true g s in
  Forall2 (fun p q => px q = px p /\ py q = py p /\ pz q = pz p + shift /\ rest q = rest p)
          (a_points s) (a_points s') /\
  px (a_center s') = px c /\ py (a_center s') = py c /\
  pz (a_center s') = pz c + shift /\ rest (a_center s') = rest c /\
  a_head s' = a_head s.
Proof.
  intros c dist shift s'.
  unfold s', shift_stage. cbn [a_points a_center a_head].
  replace (shift_value (a_center s) g) with shift by reflexivity.
  split.
  - induction (a_points s) as [| p l IH]; constructor; [| exact IH].
    cbn. auto.
  - cbn. auto.
Qed.

End AugmentClaims.

Module StereoClaims.
Import Stereo.

Lemma length_zrange (a b : Z) : length (zrange a b) = Z.to_nat (b - a).
Proof. unfold zrange. rewrite length_map, length_seq. reflexivity. Qed.

Lemma disparity_array_shape (img : image Z) :
  length (disparity_array img) = Z.to_nat (height img) /\
  Forall (fun row => length row = Z.to_nat (width img)) (disparity_array img).
Proof.
  unfold disparity_array. rewrite length_map, length_zrange, Z.sub_0_r.
  split; [reflexivity |].
  apply Forall_forall. intros row Hrow. apply in_map_iff in Hrow.
  destruct Hrow as (y & <- & _). rewrite length_map, length_zrange, Z.sub_0_r.
  reflexivity.
Qed.

Lemma length_pyslice {A} (l : list A) (a b : Z) :
  (0 <= a <= b)%Z -> (b <= Z.of_nat (length l))%Z ->
  length (pyslice l a b) = Z.to_nat (b - a).
Proof.
  intros Hab Hb. unfold pyslice.
  rewrite length_firstn, length_skipn. lia.
Qed.

Lemma randint_range (b : Z) (draw : nat) :
  (0 <= b)%Z -> exists x, randint 0 b draw = Some x /\ (0 <= x <= b)%Z.
Proof.
  intros Hb. unfold randint.
  destruct (Z.ltb_spec b 0); [lia |].
  eexists; split; [reflexivity |].
  pose proof (Z.mod_pos_bound (Z.of_nat draw) (b - 0 + 1) ltac:(lia)). lia.
Qed.

Lemma crop_size {A} (zero : A) (img : image A) (l t r b : Z) :
  (l <= r)%Z -> (t <= b)%Z ->
  exists img', crop zero img l t r b = Some img' /\
               width img' = (r - l)%Z /\ height img' = (b - t)%Z.
Proof.
  intros Hlr Htb. unfold crop.
  destruct (Z.ltb_spec r l); [lia |]. destruct (Z.ltb_spec b t); [lia |].
  eexists; split; [reflexivity |]. cbn. auto.
Qed.

Lemma slice2_shape (arr : list (list R)) (hh ww y1 x1 th tw : Z) :
  (0 <= y1)%Z -> (0 <= x1)%Z -> (0 <= th)%Z -> (0 <= tw)%Z ->
  (y1 + th <= hh)%Z -> (x1 + tw <= ww)%Z ->
  length arr = Z.to_nat hh -> Forall (fun row => length row = Z.to_nat ww) arr ->
  disp_shape (DispArray (slice2 arr y1 (y1 + th) x1 (x1 + tw))) (Z.to_nat th) (Z.to_nat tw).
Proof.
  intros Hy Hx Hth Htw Hyh Hxw Hlen Hrows. cbn. unfold slice2.
  rewrite length_map, length_pyslice by lia.
  split; [f_equal; lia |].
  apply Forall_forall. intros row Hrow. apply in_map_iff in Hrow.
  destruct Hrow as (r0 & <- & Hin).
  unfold pyslice in Hin.
  assert (Hin' : In r0 arr).
  { set (n := Z.to_nat y1) in Hin.
    rewrite <- (firstn_skipn n arr). apply in_or_app. right.
    rewrite <- (firstn_skipn (Z.to_nat (y1 + th - y1)) (skipn n arr)).
    apply in_or_app. left. exact Hin. }
  clear Hin.
  rewrite Forall_forall in Hrows. specialize (Hrows r0 Hin').
  rewrite length_pyslice by lia. f_equal; lia.
Qed.

End StereoClaims.

Module StereoItemClaims.
Import Stereo StereoClaims.

Lemma dataL_ok (ds : dataset) (index : nat) (l : image rgb) :
  (load ds = true \/
   exists dimg, nth_error (disp_L ds) index = Some dimg /\
                width dimg = width l /\ height dimg = height l) ->
  exists dl,
    (if load ds then Some None else option_map Some (nth_error (disp_L ds) index))
      = Some dl /\
    match dl with
    | Some dimg => width dimg = width l /\ height dimg = height l
    | None => True
    end.
Proof.
  intros [Hld | (dimg & Hd & Hw & Hh)].
  - rewrite Hld. exists None. auto.
  - destruct (load ds); [exists None; auto |].
    rewrite Hd. exists (Some dimg). auto.
Qed.

(** C8: for a stereo frame whose left image is at least the crop window of
    the mode (and whose disparity map, when loaded, has the left image's
    size), [itemAt] returns images, and a disparity array when present, of
    exactly 512 x 256 in training mode and 1232 x 368 in evaluation mode. *)
Theorem getitem_crop_size (ds : dataset) (dx dy index : nat)
    (l r : image rgb) (nm : string) :
  nth_error (left ds) index = Some l ->
  nth_error (right ds) index = Some r ->
  nth_error (name ds) index = Some nm ->
  (load ds = true \/
   exists dimg, nth_error (disp_L ds) index = Some dimg /\
                width dimg = width l /\ height dimg = height l) ->
  (if training ds then (512 <= width l /\ 256 <= height l)%Z
   else (1232 <= width l /\ 368 <= height l)%Z) ->
  exists it, getitem ds dx dy index = Some it /\
    match it with
    | TrainItem l' r' d _ =>
        training ds = true /\
        width l' = 512%Z /\ height l' = 256%Z /\
        width r' = 512%Z /\ height r' = 256%Z /\ disp_shape d 256 512
    | EvalItem l' r' d _ _ _ =>
        training ds = false /\
        width l' = 1232%Z /\ height l' = 368%Z /\
        width r' = 1232%Z /\ height r' = 368%Z /\ disp_shape d 368 1232
    end.
Proof.
  intros Hl Hr Hnm Hd Hsz.
  destruct (dataL_ok ds index l Hd) as (dl & Hdl & Hdim).
  unfold getitem. rewrite Hl, Hr, Hnm, Hdl.
  destruct (training ds) eqn:Ht.
  - destruct Hsz as [Hw Hh].
    destruct (randint_range (width l - 512) dx ltac:(lia)) as (x1 & Hx1 & Hx1r).
    destruct (randint_range (height l - 256) dy ltac:(lia)) as (y1 & Hy1 & Hy1r).
    rewrite Hx1, Hy1.
    destruct (crop_size (0, 0, 0)%Z l x1 y1 (x1 + 512) (y1 + 256) ltac:(lia) ltac:(lia))
      as (l' & Hl' & Hl'w & Hl'h).
    destruct (crop_size (0, 0, 0)%Z r x1 y1 (x1 + 512) (y1 + 256) ltac:(lia) ltac:(lia))
      as (r' & Hr' & Hr'w & Hr'h).
    rewrite Hl', Hr'.
    eexists; split; [reflexivity |]. cbn [width height processed]. unfold rgb in *.
    rewrite Hl'w, Hl'h, Hr'w, Hr'h.
    repeat split; try (f_equal; lia).
    destruct dl as [dimg |]; [| exact I].
    destruct Hdim as [Hdw Hdh].
    destruct (disparity_array_shape dimg) as [Hlen Hrows].
    apply (slice2_shape _ (height dimg) (width dimg) y1 x1 256 512); auto; lia.
  - set (w := width l). set (h := height l).
    destruct (crop_size (0, 0, 0)%Z l (w - 1232) (h - 368) w h ltac:(lia) ltac:(lia))
      as (l' & Hl' & Hl'w & Hl'h).
    destruct (crop_size (0, 0, 0)%Z r (w - 1232) (h - 368) w h ltac:(lia) ltac:(lia))
      as (r' & Hr' & Hr'w & Hr'h).
    rewrite Hl', Hr'.
    destruct dl as [dimg |].
    + destruct (crop_size 0%Z dimg (w - 1232) (h - 368) w h ltac:(lia) ltac:(lia))
        as (dc & Hdc & Hdcw & Hdch).
      rewrite Hdc.
      eexists; split; [reflexivity |]. cbn [width height processed]. unfold rgb in *.
      rewrite Hl'w, Hl'h, Hr'w, Hr'h.
      repeat split; try (f_equal; lia).
      * destruct (disparity_array_shape dc) as [Hlen _].
        rewrite Hlen, Hdch. replace (h - (h - 368))%Z with 368%Z by lia. reflexivity.
      * destruct (disparity_array_shape dc) as [_ Hrows].
        rewrite Hdcw in Hrows. replace (w - (w - 1232))%Z with 1232%Z in Hrows by lia.
        exact Hrows.
    + eexists; split; [reflexivity |]. cbn [width height processed]. unfold rgb in *.
      rewrite Hl'w, Hl'h, Hr'w, Hr'h.
      repeat split; try (f_equal; lia).
Qed.

End StereoItemClaims.

Module StereoWitness.
Import Stereo StereoItemClaims.

Lemma getitem_crop_size_witness :
  exists it,
    getitem (mkDataset [mkImage 600 300 (fun _ _ => (10, 20, 30)%Z)]
                       [mkImage 600 300 (fun _ _ => (40, 50, 60)%Z)]
                       [mkImage 600 300 (fun x _ => x)] true ["000001_10"%string] false)
            3 5 0 = Some it /\
    match it with
    | TrainItem l' r' d _ =>
        training (mkDataset [mkImage 600 300 (fun _ _ => (10, 20, 30)%Z)]
                            [mkImage 600 300 (fun _ _ => (40, 50, 60)%Z)]
                            [mkImage 600 300 (fun x _ => x)] true ["000001_10"%string] false)
          = true /\
        width l' = 512%Z /\ height l' = 256%Z /\
        width r' = 512%Z /\ height r' = 256%Z /\ disp_shape d 256 512
    | EvalItem l' r' d _ _ _ =>
        training (mkDataset [mkImage 600 300 (fun _ _ => (10, 20, 30)%Z)]
                            [mkImage 600 300 (fun _ _ => (40, 50, 60)%Z)]
                            [mkImage 600 300 (fun x _ => x)] true ["000001_10"%string] false)
          = false /\
        width l' = 1232%Z /\ height l' = 368%Z /\
        width r' = 1232%Z /\ height r' = 368%Z /\ disp_shape d 368 1232
    end.
Proof.
  apply (getitem_crop_size _ 3 5 0 (mkImage 600 300 (fun _ _ => (10, 20, 30)%Z))
           (mkImage 600 300 (fun _ _ => (40, 50, 60)%Z)) "000001_10"%string);
    [reflexivity | reflexivity | reflexivity | | simpl; lia].
  right. exists (mkImage 600 300 (fun x _ => x)). auto.
Defined.

(** C3: in evaluation mode the two trailing integers of the returned tuple
    are the input image's [w, h], not the post-crop size: on a KITTI frame
    of 1242 x 375 they are (1242, 375), not (1232, 368). *)
Theorem getitem_eval_trailing_dims_kitti :
  match getitem (mkDataset [mkImage 1242 375 (fun _ _ => (0, 0, 0)%Z)]
                           [mkImage 1242 375 (fun _ _ => (0, 0, 0)%Z)]
                           [] false ["000000_10"%string] true) 0 0 0 with
  | Some (EvalItem l' _ _ _ w h) =>
      (w, h) = (1242, 375)%Z /\ (width l', height l') = (1232, 368)%Z /\
      (w, h) <> (1232, 368)%Z
  | _ => False
  end.
Proof.
  cbn. split; [reflexivity | split; [reflexivity | discriminate]].
Qed.

End StereoWitness.

Module FileFacts.
Import Files.







End FileFacts.

Module AngleExtra.
Import Py PyFacts Angle AngleFacts.




End AngleExtra.

Module PointExtra.
Import Py Geometry PointData PointDataClaims.

Lemma rotate_row_inverse (t : R) (p : point) :
  rotate_row (cos (- t)) (sin (- t)) (rotate_row (cos t) (sin t) p) = p.
Proof.
  destruct p as [x y z r]. rewrite cos_neg, sin_neg.
  pose proof (sin2_cos2 t) as H. unfold Rsqr in H.
  unfold rotate_row; cbn [px py pz rest]. f_equal.
  - replace ((x * cos t + z * - sin t) * cos t + (x * sin t + z * cos t) * - - sin t)
      with (x * (sin t * sin t + cos t * cos t)) by ring.
    rewrite H. ring.
  - replace ((x * cos t + z * - sin t) * - sin t + (x * sin t + z * cos t) * cos t)
      with (z * (sin t * sin t + cos t * cos t)) by ring.
    rewrite H. ring.
Qed.

Lemma rotate_pc_inverse (pc : list point) (t : R) :
  rotate_pc_along_y (rotate_pc_along_y pc t) (- t) = pc.
Proof.
  unfold rotate_pc_along_y. rewrite map_map.
  induction pc as [| p pc IH]; [reflexivity |].
  cbn [map]. rewrite IH, rotate_row_inverse. reflexivity.
Qed.

Lemma rotate_center_inverse (c : point) (t : R) :
  rotate_center (rotate_center c t) (- t) = c.
Proof. unfold rotate_center. cbn. apply rotate_row_inverse. Qed.

(** What [getitem] computes, step by step, when it returns. *)
Lemma getitem_some (ds : dataset) (d : draws) (index : nat) (dt : datas) :
  nth_error (points ds) index = Some dt ->
  let pts := if lidar ds then point_velo dt else point_2d dt in
  let seg := if lidar ds then velo_label dt else label dt in
  (1 <= length pts)%nat -> (length pts <= length seg)%nat ->
  (1 <= num_angle ds)%Z ->
  exists c pts' seg' k r,
    np_choice (length pts) (num_point ds) (choice_draw d) = Some c /\
    take_idx pts c = Some pts' /\ take_idx seg c = Some seg' /\
    let rot := PI / 2 + frustum_angle dt in
    let s := augment ds d (mkAug pts' (box3d_center dt) (heading dt)) in
    Angle.angle2class (a_head s - rot) (num_angle ds) = Some (k, r) /\
    getitem ds d index =
      Some (mkItem (rotate_pc_along_y (a_points s) rot) seg' (rotate_center (a_center s) rot)
                   k r (Size.Re.size2class (box3d_size dt)) rot (img_id dt)).
Proof.
  intros Hdt pts seg Hn Hseg HN.
  destruct (take_idx_ok pts _ (choice_in_range _ _ (num_point ds) (choice_draw d) Hn
                                 (le_n _)))
    as (p & Hp & _).
  destruct (take_idx_ok seg _ (choice_in_range _ _ (num_point ds) (choice_draw d) Hn Hseg))
    as (l & Hl & _).
  set (s := augment ds d (mkAug p (box3d_center dt) (heading dt))).
  destruct (AngleFacts.angle2class_spec (a_head s - (PI / 2 + frustum_angle dt))
              (num_angle ds) HN) as (k & r & Heq & _).
  exists (map (fun i => choice_draw d i mod length pts) (seq 0 (num_point ds))), p, l, k, r.
  split; [apply np_choice_ok; exact Hn |].
  split; [exact Hp |]. split; [exact Hl |].
  cbv zeta. split; [exact Heq |].
  unfold getitem. rewrite Hdt. fold pts seg.
  rewrite (np_choice_ok _ _ _ Hn), Hp, Hl. fold s. rewrite Heq. reflexivity.
Qed.

(** With both augmentations off, the returned item decodes back to the
    stored record: rotating the points and center back by [- rot_angle] gives
    the sampled rows and the stored center, the labels are those of the same
    sampled rows, [rot_angle = pi/2 + frustum_angle], and the size residual
    plus the mean box size is the stored size. *)
Theorem getitem_decodes (ds : dataset) (d : draws) (index : nat) (dt : datas) :
  nth_error (points ds) index = Some dt ->
  let pts := if lidar ds then point_velo dt else point_2d dt in
  let seg := if lidar ds then velo_label dt else label dt in
  (1 <= length pts)%nat -> (length pts <= length seg)%nat ->
  (1 <= num_angle ds)%Z ->
  random_flip ds = false -> random_shift ds = false ->
  exists it c,
    getitem ds d index = Some it /\
    np_choice (length pts) (num_point ds) (choice_draw d) = Some c /\
    take_idx pts c = Some (rotate_pc_along_y (o_points it) (- o_rot_angle it)) /\
    take_idx seg c = Some (o_seg it) /\
    rotate_center (o_center it) (- o_rot_angle it) = box3d_center dt /\
    o_rot_angle it = PI / 2 + frustum_angle dt /\
    o_img_id it = img_id dt /\
    Size.Re.add_mean (o_size_r it) = box3d_size dt.
Proof.
  intros Hdt pts seg Hn Hseg HN Hf Hs.
  destruct (getitem_some ds d index dt Hdt Hn Hseg HN)
    as (c & p & l & k & r & Hc & Hp & Hl & _ & Hget).
  fold pts seg in Hc, Hp, Hl. rewrite Hget.
  eexists; exists c. split; [reflexivity |].
  unfold augment, flip_stage, shift_stage. rewrite Hf, Hs.
  cbn [a_points a_center a_head o_points o_seg o_center o_rot_angle o_img_id o_size_r].
  split; [exact Hc |].
  rewrite rotate_pc_inverse. split; [exact Hp |].
  split; [exact Hl |].
  rewrite rotate_center_inverse.
  split; [reflexivity | split; [reflexivity | split; [reflexivity |]]].
  destruct (box3d_size dt) as [[a b] e].
  unfold Size.Re.add_mean, Size.Re.size2class.
  destruct Size.Re.box_mean as [[ml mw] mh]. f_equal; [f_equal |]; ring.
Qed.

Lemma getitem_decodes_witness :
  exists it c,
    getitem (mkDataset [mkDatas 7 0.1 [mkPoint 1 0 5 [0.3]; mkPoint 2 1 6 [0.4]]
                                [1; 0]%Z [] [] (mkPoint 1 2 3 []) (4, 2, 1) 0.5]
                       3 12 false false false)
            (mkDraws (fun i => i) 0.9 0.2) 0 = Some it /\
    np_choice 2 3 (fun i => i) = Some c /\
    take_idx [mkPoint 1 0 5 [0.3]; mkPoint 2 1 6 [0.4]] c =
      Some (rotate_pc_along_y (o_points it) (- o_rot_angle it)) /\
    take_idx [1; 0]%Z c = Some (o_seg it) /\
    rotate_center (o_center it) (- o_rot_angle it) = mkPoint 1 2 3 [] /\
    o_rot_angle it = PI / 2 + 0.1 /\
    o_img_id it = 7%Z /\
    Size.Re.add_mean (o_size_r it) = (4, 2, 1).
Proof.
  pose (dt := mkDatas 7 0.1 [mkPoint 1 0 5 [0.3]; mkPoint 2 1 6 [0.4]]
                      [1; 0]%Z [] [] (mkPoint 1 2 3 []) (4, 2, 1) 0.5).
  pose (ds := mkDataset [dt] 3 12 false false false).
  apply (getitem_decodes ds (mkDraws (fun i => i) 0.9 0.2) 0 dt);
    simpl; [reflexivity | lia | lia | lia | reflexivity | reflexivity].
Defined.

(** [myPointData.__getitem__] raises [IndexError] for an index at or past
    [len(self)]. *)
Theorem point_getitem_out_of_range (ds : dataset) (d : draws) (index : nat) :
  (Files.point_len ds <= index)%nat -> getitem ds d index = None.
Proof.
  intros H. unfold getitem, Files.point_len in *.
  rewrite (proj2 (nth_error_None (points ds) index) H). reflexivity.
Qed.

Lemma point_getitem_out_of_range_witness :
  (Files.point_len (mkDataset [] 16 12 false false false) <= 0)%nat /\
  getitem (mkDataset [] 16 12 false false false) (mkDraws (fun i => i) 0 0) 0 = None.
Proof.
  split; [reflexivity | apply point_getitem_out_of_range; reflexivity].
Defined.

End PointExtra.

Module AugmentExtra.
Import Py Geometry PointData.

(** The random shift always lies in [[0.8 dist, 1.2 dist]] (so it is never
    negative), and for every Gaussian draw [g <= 16] the clip saturates: the
    shift is exactly [0.8 dist]. *)
Theorem shift_value_bounds (c : point) (g : R) :
  0.8 * shift_dist c <= shift_value c g <= 1.2 * shift_dist c /\
  0 <= shift_value c g /\
  (g <= 16 -> shift_value c g = 0.8 * shift_dist c).
Proof.
  unfold shift_value, clip.
  pose proof (sqrt_pos (px c ^ 2 + py c ^ 2)) as Hd. fold (shift_dist c) in Hd.
  set (dist := shift_dist c) in *.
  assert (Hlo : dist * 0.8 <= Rmax (g * dist * 0.05) (dist * 0.8)) by apply Rmax_r.
  split; [| split].
  - split.
    + apply Rmin_case_strong; intros; lra.
    + pose proof (Rmin_r (Rmax (g * dist * 0.05) (dist * 0.8)) (dist * 1.2)). lra.
  - apply Rmin_case_strong; intros; lra.
  - intros Hg.
    rewrite Rmax_right by nra. rewrite Rmin_left by lra. ring.
Qed.

(** Negating x leaves the planar distance used by the shift unchanged: with
    both augmentations on, the shift added to every point's z is computed from
    the stored center, whether or not the flip was taken. *)
Theorem augment_shift_from_stored_center (ds : dataset) (d : draws) (s : aug) :
  random_shift ds = true ->
  let s' := augment ds d s in
  Forall2 (fun p q => pz q = pz p + shift_value (a_center s) (gauss_draw d))
          (a_points s) (a_points s') /\
  pz (a_center s') = pz (a_center s) + shift_value (a_center s) (gauss_draw d).
Proof.
  intros Hs s'.
  assert (Hneg : forall c, shift_value (neg_x c) (gauss_draw d) =
                           shift_value c (gauss_draw d)).
  { intros c. unfold shift_value, shift_dist, neg_x. cbn [px py].
    replace ((- px c) ^ 2) with (px c ^ 2) by ring. reflexivity. }
  unfold s', augment, shift_stage. rewrite Hs.
  unfold flip_stage.
  destruct (random_flip ds); [destruct (Rlt_dec 0.5 (uniform_draw d)) |];
    cbn [a_points a_center a_head]; rewrite ?Hneg;
    (split; [| reflexivity]);
    induction (a_points s) as [| p l IH]; cbn [map]; constructor; auto; reflexivity.
Qed.

Lemma augment_shift_from_stored_center_witness :
  random_shift (mkDataset [] 4 12 true true false) = true /\
  let s := mkAug [mkPoint 1 0 5 []] (mkPoint 3 4 10 []) 0.5 in
  let s' := augment (mkDataset [] 4 12 true true false) (mkDraws (fun i => i) 0.9 0.2) s in
  Forall2 (fun p q => pz q = pz p + shift_value (a_center s) 0.2) (a_points s) (a_points s') /\
  pz (a_center s') = pz (a_center s) + shift_value (a_center s) 0.2.
Proof.
  split; [reflexivity |].
  apply (augment_shift_from_stored_center (mkDataset [] 4 12 true true false)
           (mkDraws (fun i => i) 0.9 0.2)); reflexivity.
Defined.

End AugmentExtra.

Module StereoExtra.
Import Stereo StereoClaims StereoItemClaims.

Lemma nth_error_zrange (a b : Z) (i : nat) :
  (i < Z.to_nat (b - a))%nat -> nth_error (zrange a b) i = Some (a + Z.of_nat i)%Z.
Proof.
  intros H. unfold zrange. rewrite nth_error_map, nth_error_seq.
  destruct (Nat.ltb_spec i (Z.to_nat (b - a))); [reflexivity | lia].
Qed.

Lemma at2_disparity_array (img : image Z) (x y : Z) :
  (0 <= x < width img)%Z -> (0 <= y < height img)%Z ->
  at2 (disparity_array img) (Z.to_nat y) (Z.to_nat x) = Some (IZR (pixel img x y) / 256).
Proof.
  intros Hx Hy. unfold at2, disparity_array.
  rewrite nth_error_map, nth_error_zrange by lia. cbn [option_map].
  rewrite nth_error_map, nth_error_zrange by lia. cbn [option_map].
  rewrite !Z.add_0_l, !Z2Nat.id by lia. reflexivity.
Qed.

Lemma nth_error_pyslice {A} (l : list A) (a b : Z) (i : nat) :
  (0 <= a)%Z -> (i < Z.to_nat (b - a))%nat ->
  nth_error (pyslice l a b) i = nth_error l (Z.to_nat a + i).
Proof.
  intros Ha Hi. unfold pyslice. rewrite nth_error_firstn.
  destruct (Nat.ltb_spec i (Z.to_nat (b - a))); [| lia].
  apply nth_error_skipn.
Qed.

Lemma at2_slice2 (arr : list (list R)) (y1 y2 x1 x2 : Z) (y x : nat) :
  (0 <= y1)%Z -> (0 <= x1)%Z ->
  (y < Z.to_nat (y2 - y1))%nat -> (x < Z.to_nat (x2 - x1))%nat ->
  at2 (slice2 arr y1 y2 x1 x2) y x = at2 arr (Z.to_nat y1 + y) (Z.to_nat x1 + x).
Proof.
  intros Hy1 Hx1 Hy Hx. unfold at2, slice2.
  rewrite nth_error_map, nth_error_pyslice by lia.
  destruct (nth_error arr (Z.to_nat y1 + y)) as [row |]; [| reflexivity].
  cbn [option_map]. apply nth_error_pyslice; lia.
Qed.

Lemma crop_pixel {A} (zero : A) (img img' : image A) (l t r b x y : Z) :
  crop zero img l t r b = Some img' ->
  pixel img' x y =
    if (0 <=? x + l)%Z && (x + l <? width img)%Z && (0 <=? y + t)%Z && (y + t <? height img)%Z
    then pixel img (x + l) (y + t) else zero.
Proof.
  unfold crop. destruct (Z.ltb r l || Z.ltb b t); [discriminate |].
  intros H. injection H as <-. reflexivity.
Qed.

Lemma crop_pixel_inside {A} (zero : A) (img img' : image A) (l t r b x y : Z) :
  crop zero img l t r b = Some img' ->
  (0 <= x + l < width img)%Z -> (0 <= y + t < height img)%Z ->
  pixel img' x y = pixel img (x + l) (y + t).
Proof.
  intros H Hx Hy. rewrite (crop_pixel zero img img' l t r b x y H).
  destruct (Z.leb_spec 0 (x + l)), (Z.ltb_spec (x + l) (width img)),
           (Z.leb_spec 0 (y + t)), (Z.ltb_spec (y + t) (height img)); try lia.
  reflexivity.
Qed.

(** [myImageFloder.__getitem__] raises [IndexError] for an index at or past
    [len(self)] ([len(self.left)]). *)
Theorem image_getitem_out_of_range (ds : dataset) (dx dy index : nat) :
  (Files.image_len ds <= index)%nat -> getitem ds dx dy index = None.
Proof.
  intros H. unfold getitem, Files.image_len in *.
  rewrite (proj2 (nth_error_None (left ds) index) H). reflexivity.
Qed.

Lemma image_getitem_out_of_range_witness :
  (Files.image_len (mkDataset [] [] [] true [] false) <= 2)%nat /\
  getitem (mkDataset [] [] [] true [] false) 0 0 2 = None.
Proof. split; [cbn; lia | apply image_getitem_out_of_range; cbn; lia]. Defined.

(** Training mode crops the left image, the right image and the disparity
    map with the same window: a random origin [(x1, y1)] with the window
    inside the image, output pixel [(x, y)] of each image being the
    normalized source pixel [(x1 + x, y1 + y)] and the disparity entry
    [[y][x]] being the raw value at [(x1 + x, y1 + y)] divided by 256. *)
Theorem getitem_train_same_window (ds : dataset) (dx dy index : nat)
    (l r : image rgb) (dimg : image Z) (nm : string) :
  nth_error (left ds) index = Some l ->
  nth_error (right ds) index = Some r ->
  nth_error (name ds) index = Some nm ->
  nth_error (disp_L ds) index = Some dimg ->
  training ds = true -> load ds = false ->
  width r = width l -> height r = height l ->
  width dimg = width l -> height dimg = height l ->
  (512 <= width l)%Z -> (256 <= height l)%Z ->
  exists x1 y1 lo ro d,
    getitem ds dx dy index = Some (TrainItem lo ro (DispArray d) nm) /\
    (0 <= x1 <= width l - 512)%Z /\ (0 <= y1 <= height l - 256)%Z /\
    forall x y, (0 <= x < 512)%Z -> (0 <= y < 256)%Z ->
      pixel lo x y = normalize (pixel l (x1 + x) (y1 + y)) /\
      pixel ro x y = normalize (pixel r (x1 + x) (y1 + y)) /\
      at2 d (Z.to_nat y) (Z.to_nat x) = Some (IZR (pixel dimg (x1 + x) (y1 + y)) / 256).
Proof.
  intros Hl Hr Hnm Hd Ht Hld Hrw Hrh Hdw Hdh Hw Hh.
  destruct (randint_range (width l - 512) dx ltac:(lia)) as (x1 & Hx1 & Hx1r).
  destruct (randint_range (height l - 256) dy ltac:(lia)) as (y1 & Hy1 & Hy1r).
  destruct (crop_size (0, 0, 0)%Z l x1 y1 (x1 + 512) (y1 + 256) ltac:(lia) ltac:(lia))
    as (l' & Hl' & _ & _).
  destruct (crop_size (0, 0, 0)%Z r x1 y1 (x1 + 512) (y1 + 256) ltac:(lia) ltac:(lia))
    as (r' & Hr' & _ & _).
  exists x1, y1, (processed l'), (processed r'),
    (slice2 (disparity_array dimg) y1 (y1 + 256) x1 (x1 + 512)).
  split.
  { unfold getitem. rewrite Hl, Hr, Hnm, Hld, Hd, Ht. cbn [option_map].
    rewrite Hx1, Hy1, Hl', Hr'. reflexivity. }
  split; [lia |]. split; [lia |].
  intros x y Hx Hy. cbn [pixel processed].
  rewrite (crop_pixel_inside _ l l' x1 y1 (x1 + 512) (y1 + 256) x y Hl') by lia.
  rewrite (crop_pixel_inside _ r r' x1 y1 (x1 + 512) (y1 + 256) x y Hr') by lia.
  rewrite (Z.add_comm x x1), (Z.add_comm y y1).
  split; [reflexivity | split; [reflexivity |]].
  rewrite at2_slice2 by lia.
  rewrite <- !Z2Nat.inj_add by lia.
  apply at2_disparity_array; lia.
Qed.

Lemma getitem_train_same_window_witness :
  exists x1 y1 lo ro d,
    getitem (mkDataset [mkImage 600 300 (fun x y => (x, y, 0)%Z)]
                       [mkImage 600 300 (fun x y => (y, x, 1)%Z)]
                       [mkImage 600 300 (fun x y => (x + y)%Z)]
                       true ["000002_10"%string] false) 7 9 0
      = Some (TrainItem lo ro (DispArray d) "000002_10"%string) /\
    (0 <= x1 <= 600 - 512)%Z /\ (0 <= y1 <= 300 - 256)%Z /\
    forall x y, (0 <= x < 512)%Z -> (0 <= y < 256)%Z ->
      pixel lo x y = normalize (x1 + x, y1 + y, 0)%Z /\
      pixel ro x y = normalize (y1 + y, x1 + x, 1)%Z /\
      at2 d (Z.to_nat y) (Z.to_nat x) = Some (IZR ((x1 + x) + (y1 + y)) / 256).
Proof.
  apply (getitem_train_same_window _ 7 9 0 (mkImage 600 300 (fun x y => (x, y, 0)%Z))
           (mkImage 600 300 (fun x y => (y, x, 1)%Z)) (mkImage 600 300 (fun x y => (x + y)%Z))
           "000002_10"%string); cbn; try reflexivity; lia.
Defined.

(** Evaluation mode takes the bottom-right 1232 x 368 window of both images
    (each cropped with the left image's size) and of the disparity map:
    output pixel [(x, y)] is the source pixel [(w - 1232 + x, h - 368 + y)],
    the disparity entry [[y][x]] the raw value there divided by 256, and the
    trailing values are [w, h]. *)
Theorem getitem_eval_bottom_right (ds : dataset) (dx dy index : nat)
    (l r : image rgb) (dimg : image Z) (nm : string) :
  nth_error (left ds) index = Some l ->
  nth_error (right ds) index = Some r ->
  nth_error (name ds) index = Some nm ->
  nth_error (disp_L ds) index = Some dimg ->
  training ds = false -> load ds = false ->
  width r = width l -> height r = height l ->
  width dimg = width l -> height dimg = height l ->
  (1232 <= width l)%Z -> (368 <= height l)%Z ->
  let w := width l in
  let h := height l in
  exists lo ro d,
    getitem ds dx dy index = Some (EvalItem lo ro (DispArray d) nm w h) /\
    forall x y, (0 <= x < 1232)%Z -> (0 <= y < 368)%Z ->
      pixel lo x y = normalize (pixel l (w - 1232 + x) (h - 368 + y)) /\
      pixel ro x y = normalize (pixel r (w - 1232 + x) (h - 368 + y)) /\
      at2 d (Z.to_nat y) (Z.to_nat x)
        = Some (IZR (pixel dimg (w - 1232 + x) (h - 368 + y)) / 256).
Proof.
  intros Hl Hr Hnm Hd Ht Hld Hrw Hrh Hdw Hdh Hw Hh w h.
  destruct (crop_size (0, 0, 0)%Z l (w - 1232) (h - 368) w h ltac:(lia) ltac:(lia))
    as (l' & Hl' & _ & _).
  destruct (crop_size (0, 0, 0)%Z r (w - 1232) (h - 368) w h ltac:(lia) ltac:(lia))
    as (r' & Hr' & _ & _).
  destruct (crop_size 0%Z dimg (w - 1232) (h - 368) w h ltac:(lia) ltac:(lia))
    as (dc & Hdc & Hdcw & Hdch).
  exists (processed l'), (processed r'), (disparity_array dc).
  split.
  { unfold getitem. rewrite Hl, Hr, Hnm, Hld, Hd, Ht. cbn [option_map].
    fold w h. rewrite Hl', Hr', Hdc. reflexivity. }
  intros x y Hx Hy. cbn [pixel processed].
  rewrite (crop_pixel_inside _ l l' (w - 1232) (h - 368) w h x y Hl') by lia.
  rewrite (crop_pixel_inside _ r r' (w - 1232) (h - 368) w h x y Hr') by lia.
  rewrite (Z.add_comm x), (Z.add_comm y).
  split; [reflexivity | split; [reflexivity |]].
  rewrite at2_disparity_array by lia.
  rewrite (crop_pixel_inside _ dimg dc (w - 1232) (h - 368) w h x y Hdc) by lia.
  rewrite (Z.add_comm x), (Z.add_comm y). reflexivity.
Qed.

Lemma getitem_eval_bottom_right_witness :
  exists lo ro d,
    getitem (mkDataset [mkImage 1242 375 (fun x y => (x, y, 0)%Z)]
                       [mkImage 1242 375 (fun x y => (y, x, 1)%Z)]
                       [mkImage 1242 375 (fun x y => (x + y)%Z)]
                       false ["000003_10"%string] false) 0 0 0
      = Some (EvalItem lo ro (DispArray d) "000003_10"%string 1242 375) /\
    forall x y, (0 <= x < 1232)%Z -> (0 <= y < 368)%Z ->
      pixel lo x y = normalize (1242 - 1232 + x, 375 - 368 + y, 0)%Z /\
      pixel ro x y = normalize (375 - 368 + y, 1242 - 1232 + x, 1)%Z /\
      at2 d (Z.to_nat y) (Z.to_nat x)
        = Some (IZR ((1242 - 1232 + x) + (375 - 368 + y)) / 256).
Proof.
  apply (getitem_eval_bottom_right _ 0 0 0 (mkImage 1242 375 (fun x y => (x, y, 0)%Z))
           (mkImage 1242 375 (fun x y => (y, x, 1)%Z)) (mkImage 1242 375 (fun x y => (x + y)%Z))
           "000003_10"%string); cbn; try reflexivity; lia.
Defined.

(** With [load] set, no disparity map is read: the result does not depend on
    [disp_L] (it may even be empty) and a returned item carries the
    placeholder [0] instead of a disparity array. *)
Theorem getitem_load_skips_disparity (ds : dataset) (dx dy index : nat) :
  load ds = true ->
  getitem ds dx dy index =
    getitem (mkDataset (left ds) (right ds) [] (training ds) (name ds) true) dx dy index /\
  forall it, getitem ds dx dy index = Some it ->
    match it with
    | TrainItem _ _ d _ => d = DispZero
    | EvalItem _ _ d _ _ _ => d = DispZero
    end.
Proof.
  intros Hld. split.
  - destruct ds as [lf rt dl tr nmv ldv]; cbn in Hld; subst ldv. reflexivity.
  - intros it. unfold getitem. rewrite Hld.
    destruct (nth_error (left ds) index), (nth_error (right ds) index),
             (nth_error (name ds) index); try discriminate.
    destruct (training ds);
      repeat match goal with
             | |- context [match ?e with Some _ => _ | None => _ end] => destruct e
             end;
      try discriminate; intros H; injection H as <-; reflexivity.
Qed.

Lemma getitem_load_skips_disparity_witness :
  let ds := mkDataset [mkImage 600 300 (fun _ _ => (1, 2, 3)%Z)]
                      [mkImage 600 300 (fun _ _ => (1, 2, 3)%Z)]
                      [] true ["a"%string] true in
  getitem ds 1 2 0 =
    getitem (mkDataset (left ds) (right ds) [] (training ds) (name ds) true) 1 2 0 /\
  forall it, getitem ds 1 2 0 = Some it ->
    match it with
    | TrainItem _ _ d _ => d = DispZero
    | EvalItem _ _ d _ _ _ => d = DispZero
    end.
Proof. intros ds. apply getitem_load_skips_disparity. reflexivity. Defined.

(** Training mode raises (from [random.randint]) when the left image is
    narrower than 512 or lower than 256 pixels. *)
Theorem getitem_train_too_small (ds : dataset) (dx dy index : nat) (l : image rgb) :
  training ds = true ->
  nth_error (left ds) index = Some l ->
  (width l < 512 \/ height l < 256)%Z ->
  getitem ds dx dy index = None.
Proof.
  intros Ht Hl Hsmall. unfold getitem. rewrite Hl.
  destruct (nth_error (right ds) index), (nth_error (name ds) index); try reflexivity.
  destruct (if load ds then _ else _) as [dl |]; [| reflexivity].
  rewrite Ht. unfold randint at 1 2.
  destruct (Z.ltb_spec (width l - 512) 0), (Z.ltb_spec (height l - 256) 0);
    try reflexivity; lia.
Qed.

Lemma getitem_train_too_small_witness :
  getitem (mkDataset [mkImage 500 375 (fun _ _ => (0, 0, 0)%Z)]
                     [mkImage 500 375 (fun _ _ => (0, 0, 0)%Z)]
                     [] true ["b"%string] true) 4 4 0 = None.
Proof.
  apply (getitem_train_too_small _ 4 4 0 (mkImage 500 375 (fun _ _ => (0, 0, 0)%Z)));
    cbn; [reflexivity | reflexivity | lia].
Defined.

(** Evaluation mode never fails on image size: for any left image, both
    outputs are 1232 x 368, and where the window reaches past the left or
    top border of a smaller image the pixels are the zero padding of
    [crop], normalized. *)
Theorem getitem_eval_any_size (ds : dataset) (dx dy index : nat)
    (l r : image rgb) (nm : string) :
  nth_error (left ds) index = Some l ->
  nth_error (right ds) index = Some r ->
  nth_error (name ds) index = Some nm ->
  training ds = false -> load ds = true ->
  width r = width l -> height r = height l ->
  let w := width l in
  let h := height l in
  exists lo ro,
    getitem ds dx dy index = Some (EvalItem lo ro DispZero nm w h) /\
    width lo = 1232%Z /\ height lo = 368%Z /\
    width ro = 1232%Z /\ height ro = 368%Z /\
    forall x y, (0 <= x < 1232)%Z -> (0 <= y < 368)%Z ->
      pixel lo x y =
        if (0 <=? w - 1232 + x)%Z && (0 <=? h - 368 + y)%Z
        then normalize (pixel l (w - 1232 + x) (h - 368 + y))
        else normalize (0, 0, 0)%Z.
Proof.
  intros Hl Hr Hnm Ht Hld Hrw Hrh w h.
  destruct (crop_size (0, 0, 0)%Z l (w - 1232) (h - 368) w h ltac:(lia) ltac:(lia))
    as (l' & Hl' & Hl'w & Hl'h).
  destruct (crop_size (0, 0, 0)%Z r (w - 1232) (h - 368) w h ltac:(lia) ltac:(lia))
    as (r' & Hr' & Hr'w & Hr'h).
  exists (processed l'), (processed r').
  split.
  { unfold getitem. rewrite Hl, Hr, Hnm, Hld, Ht. fold w h. rewrite Hl', Hr'. reflexivity. }
  cbn [width height pixel processed]. unfold rgb in *.
  rewrite Hl'w, Hl'h, Hr'w, Hr'h.
  split; [lia | split; [lia | split; [lia | split; [lia |]]]].
  intros x y Hx Hy.
  rewrite (crop_pixel _ l l' (w - 1232) (h - 368) w h x y Hl').
  rewrite (Z.add_comm x), (Z.add_comm y). fold w h.
  destruct (Z.leb_spec 0 (w - 1232 + x)), (Z.ltb_spec (w - 1232 + x) w),
           (Z.leb_spec 0 (h - 368 + y)), (Z.ltb_spec (h - 368 + y) h);
    cbn [andb]; try lia; reflexivity.
Qed.

Lemma getitem_eval_any_size_witness :
  exists lo ro,
    getitem (mkDataset [mkImage 1000 300 (fun _ _ => (9, 9, 9)%Z)]
                       [mkImage 1000 300 (fun _ _ => (8, 8, 8)%Z)]
                       [] false ["c"%string] true) 0 0 0
      = Some (EvalItem lo ro DispZero "c"%string 1000 300) /\
    width lo = 1232%Z /\ height lo = 368%Z /\
    width ro = 1232%Z /\ height ro = 368%Z /\
    forall x y, (0 <= x < 1232)%Z -> (0 <= y < 368)%Z ->
      pixel lo x y =
        if (0 <=? 1000 - 1232 + x)%Z && (0 <=? 300 - 368 + y)%Z
        then normalize (9, 9, 9)%Z
        else normalize (0, 0, 0)%Z.
Proof.
  apply (getitem_eval_any_size _ 0 0 0 (mkImage 1000 300 (fun _ _ => (9, 9, 9)%Z))
           (mkImage 1000 300 (fun _ _ => (8, 8, 8)%Z)) "c"%string); reflexivity.
Defined.

End StereoExtra.

